(** * candidate-reviewer: the HTTP surface of [server/auth.py] and [server/main.py]

    The repository is a FastAPI application of two modules.  [auth.py]
    builds an [APIRouter] with two POST routes whose handlers return a
    constant dictionary; [main.py] builds the [FastAPI] application, includes
    that router and declares one GET route.

    The development has three layers:
    - the HTTP data the program exchanges (scopes, responses, JSON values);
    - the calls the two modules make into the web framework ([FastAPI()],
      [APIRouter()], [router.post], [app.get], [app.include_router]) and the
      dispatch the framework performs on a request, written after
      FastAPI 0.115 / Starlette 0.46 with every argument the source leaves
      out at its default;
    - the two modules themselves, [auth] and [main], statement by statement.

    Handlers are computations in a state-and-exception monad over the
    application object, so that "returns a constant", "raises nothing" and
    "mutates nothing" are statements to prove and not built into a type. *)

From Stdlib Require Import String Ascii List Bool Arith Lia.
Import ListNotations.
Open Scope string_scope.

(** ** JSON values *)

(** The dictionaries the handlers return: string keys, string values, in
    insertion order as Python dictionaries keep them. *)
Definition Dict : Type := list (string * string).

(** ** Requests and responses *)

(** The ASGI scope of an HTTP request together with its body.  The method is
    the upper-case method name the server puts in [scope["method"]]. *)
Record Scope : Type := mkScope {
  scope_method : string;
  scope_path : string;
  scope_query_string : string;
  scope_headers : list (string * string);
  scope_body : string
}.

(** The generated OpenAPI document, abstracted to what it is computed from:
    the path and the methods of every route that is included in the schema. *)
Definition Schema : Type := list (string * list string).

Inductive DocPage : Type := SwaggerUI | SwaggerRedirect | ReDoc.

Inductive Content : Type :=
| JSONContent (d : Dict)
| OpenAPIContent (s : Schema)
| HTMLContent (p : DocPage)
| NoContent.

(** Of the response headers only the ones the routing code sets itself are
    kept ([Allow] on a 405, [location] on a redirect). *)
Record Response : Type := mkResponse {
  status_code : nat;
  content : Content;
  resp_headers : list (string * string)
}.

(** [starlette.exceptions.HTTPException]: a status, a detail and headers. *)
Record HTTPException : Type := mkHTTPException {
  exc_status_code : nat;
  exc_detail : string;
  exc_headers : list (string * string)
}.

(** ** Routes and the application object *)

(** Functions bound to routes.  The first three are the coroutines the
    repository defines; the other four are the closures [FastAPI.setup]
    creates for the documentation routes. *)
Inductive Endpoint : Type :=
| ep_signup
| ep_login
| ep_health
| ep_openapi
| ep_swagger_ui_html
| ep_swagger_ui_redirect
| ep_redoc_html.

(** A route: [fastapi.routing.APIRoute] when [route_is_api], otherwise a
    plain [starlette.routing.Route]. *)
Record Route : Type := mkRoute {
  route_path : string;
  route_methods : list string;
  route_endpoint : Endpoint;
  route_is_api : bool;
  route_include_in_schema : bool
}.

(** The [FastAPI] object: its route table and the cached OpenAPI schema
    ([app.openapi_schema], [None] until the schema is first asked for). *)
Record App : Type := mkApp {
  routes : list Route;
  openapi_schema : option Schema
}.

(** The [APIRouter] object of [auth.py]. *)
Record APIRouter : Type := mkAPIRouter {
  router_prefix : string;
  router_routes : list Route
}.

(** ** The monad of handler code *)

(** A computation reads and may replace the application object, and either
    returns a value or raises an [HTTPException]. *)
Inductive Outcome (A : Type) : Type :=
| Returned (a : A)
| Raised (e : HTTPException).
Arguments Returned {A} a.
Arguments Raised {A} e.

Definition M (A : Type) : Type := App -> Outcome A * App.

Definition ret {A : Type} (a : A) : M A := fun app => (Returned a, app).

Definition bind {A B : Type} (c : M A) (k : A -> M B) : M B :=
  fun app =>
    match c app with
    | (Returned a, app') => k a app'
    | (Raised e, app') => (Raised e, app')
    end.

Definition raise {A : Type} (e : HTTPException) : M A :=
  fun app => (Raised e, app).

Definition get_app : M App := fun app => (Returned app, app).

Definition put_app (app' : App) : M unit := fun _ => (Returned tt, app').

Notation "x <- c ;; k" := (bind c (fun x => k))
  (at level 61, c at next level, right associativity).

(** ** Strings *)

Definition LF : string := String (ascii_of_nat 10) EmptyString.

(** [s.endswith(c)] for a one-character [c]. *)
Fixpoint endswith (s : string) (c : ascii) : bool :=
  match s with
  | EmptyString => false
  | String a EmptyString => Ascii.eqb a c
  | String _ s' => endswith s' c
  end.

(** [s.rstrip(c)]: every trailing occurrence of [c] is removed. *)
Fixpoint rstrip (s : string) (c : ascii) : string :=
  match s with
  | EmptyString => EmptyString
  | String a s' =>
      match rstrip s' c with
      | EmptyString => if Ascii.eqb a c then EmptyString else String a EmptyString
      | t => String a t
      end
  end.

(** [x in xs] on method names. *)
Definition mem (x : string) (xs : list string) : bool :=
  existsb (String.eqb x) xs.

(** ** Route matching ([starlette.routing]) *)

(** [compile_path] turns a path without parameters into the pattern
    [^] + [re.escape(path)] + [$], and [Route.matches] applies [re.match] to
    it.  Python's [$] accepts the end of the string and also the position
    before a final newline, so the pattern accepts the path itself and the
    path followed by one line feed. *)
Definition path_regex_match (pattern_path route_path' : string) : bool :=
  String.eqb route_path' pattern_path
  || String.eqb route_path' (pattern_path ++ LF).

Inductive Match : Type := NONE | PARTIAL | FULL.

(** [Route.matches]: the path decides between [NONE] and a match, the method
    between [PARTIAL] and [FULL]; an empty method set accepts every method. *)
Definition matches (route : Route) (scope : Scope) : Match :=
  if path_regex_match (route_path route) (scope_path scope) then
    match route_methods route with
    | [] => FULL
    | ms => if mem (scope_method scope) ms then FULL else PARTIAL
    end
  else NONE.

(** The first loop of [Router.app]: the first route that matches in full
    wins; failing that, the first partial match is remembered. *)
Fixpoint route_loop (rs : list Route) (scope : Scope) (partial : option Route)
  : Route + option Route :=
  match rs with
  | [] => inr partial
  | route :: rest =>
      match matches route scope with
      | FULL => inl route
      | PARTIAL =>
          route_loop rest scope
            (match partial with None => Some route | Some _ => partial end)
      | NONE => route_loop rest scope partial
      end
  end.

(** The scope [Router.app] tries when nothing matched: trailing slashes
    removed if the path ends in a slash, one slash appended otherwise. *)
Definition redirect_scope (scope : Scope) : Scope :=
  let p := scope_path scope in
  mkScope (scope_method scope)
          (if endswith p "/" then rstrip p "/" else p ++ "/")
          (scope_query_string scope) (scope_headers scope) (scope_body scope).

(** The second loop of [Router.app]: does any route match the redirect scope
    at least partially? *)
Definition redirect_match (rs : list Route) (scope : Scope) : bool :=
  existsb (fun route =>
             match matches route (redirect_scope scope) with
             | NONE => false
             | _ => true
             end) rs.

(** [str(URL(scope=...))] without the scheme and authority it prepends when
    the scope carries a host: the path, and the query string if there is
    one. *)
Definition URL (scope : Scope) : string :=
  match scope_query_string scope with
  | EmptyString => scope_path scope
  | q => scope_path scope ++ "?" ++ q
  end.

Definition RedirectResponse (url : string) : Response :=
  mkResponse 307 NoContent [("location", url)].

Definition JSONResponse (d : Dict) (status : nat) (hs : list (string * string))
  : Response :=
  mkResponse status (JSONContent d) hs.

(** [Router.not_found] inside an application: [HTTPException(404)], whose
    detail defaults to the status phrase. *)
Definition not_found {A : Type} : M A :=
  raise (mkHTTPException 404 "Not Found" []).

(** ** Building route tables ([starlette.routing], [fastapi.routing],
       [fastapi.applications]) *)

Definition startswith (s : string) (c : ascii) : bool :=
  match s with
  | EmptyString => false
  | String a _ => Ascii.eqb a c
  end.

Definition default_methods (methods : option (list string)) : list string :=
  match methods with
  | None => ["GET"]
  | Some ms => ms
  end.

(** [starlette.routing.Route(path, endpoint, methods=...)] for a function
    endpoint: the path must start with a slash, the methods default to GET,
    and HEAD is added wherever GET is allowed.  [None] stands for the
    assertion failing. *)
Definition StarletteRoute (path : string) (endpoint : Endpoint)
    (methods : option (list string)) (include_in_schema : bool)
  : option Route :=
  if startswith path "/" then
    let ms := default_methods methods in
    Some (mkRoute path
            (if mem "GET" ms && negb (mem "HEAD" ms) then ms ++ ["HEAD"] else ms)
            endpoint false include_in_schema)
  else None.

(** [fastapi.routing.APIRoute(path, endpoint, methods=...)]: the methods
    default to GET and nothing is added to them. *)
Definition APIRoute (path : string) (endpoint : Endpoint)
    (methods : option (list string)) : Route :=
  mkRoute path (default_methods methods) endpoint true true.

(** [APIRouter()]: no prefix, no routes. *)
Definition APIRouter_new : APIRouter := mkAPIRouter "" [].

(** [APIRouter.add_api_route]: the new route is appended, its path prefixed
    with the router's own prefix. *)
Definition APIRouter_add_api_route (router : APIRouter) (path : string)
    (endpoint : Endpoint) (methods : option (list string)) : APIRouter :=
  mkAPIRouter (router_prefix router)
    (router_routes router ++ [APIRoute (router_prefix router ++ path) endpoint methods]).

(** The decorator [@router.post(path)] applied to [endpoint]. *)
Definition APIRouter_post (router : APIRouter) (path : string)
    (endpoint : Endpoint) : APIRouter :=
  APIRouter_add_api_route router path endpoint (Some ["POST"]).

(** [app.add_route], used by [FastAPI.setup] and by [include_router] for
    plain routes. *)
Definition FastAPI_add_route (app : App) (path : string) (endpoint : Endpoint)
    (methods : option (list string)) (include_in_schema : bool) : option App :=
  match StarletteRoute path endpoint methods include_in_schema with
  | Some route => Some (mkApp (routes app ++ [route]) (openapi_schema app))
  | None => None
  end.

(** [app.add_api_route]: the application's own router has no prefix. *)
Definition FastAPI_add_api_route (app : App) (path : string)
    (endpoint : Endpoint) (methods : option (list string)) : App :=
  mkApp (routes app ++ [APIRoute path endpoint methods]) (openapi_schema app).

(** The decorator [@app.get(path)] applied to [endpoint]. *)
Definition FastAPI_get (app : App) (path : string) (endpoint : Endpoint) : App :=
  FastAPI_add_api_route app path endpoint (Some ["GET"]).

Definition option_bind {A B : Type} (o : option A) (k : A -> option B)
  : option B :=
  match o with
  | Some a => k a
  | None => None
  end.

(** [FastAPI()] with no argument: [openapi_url], [docs_url],
    [swagger_ui_oauth2_redirect_url] and [redoc_url] keep their defaults, so
    [setup] registers the four documentation routes, none of them included
    in the schema; the schema itself is not generated yet. *)
Definition FastAPI_new : option App :=
  let openapi_url := "/openapi.json" in
  let docs_url := "/docs" in
  let swagger_ui_oauth2_redirect_url := "/docs/oauth2-redirect" in
  let redoc_url := "/redoc" in
  option_bind (FastAPI_add_route (mkApp [] None) openapi_url ep_openapi None false)
    (fun app =>
  option_bind (FastAPI_add_route app docs_url ep_swagger_ui_html None false)
    (fun app =>
  option_bind (FastAPI_add_route app swagger_ui_oauth2_redirect_url
                 ep_swagger_ui_redirect None false)
    (fun app =>
  FastAPI_add_route app redoc_url ep_redoc_html None false))).

(** The loop of [include_router]: every route of the included router is
    registered again under [prefix]. *)
Fixpoint include_routes (app : App) (prefix : string) (rs : list Route)
  : option App :=
  match rs with
  | [] => Some app
  | route :: rest =>
      option_bind
        (if route_is_api route then
           Some (FastAPI_add_api_route app (prefix ++ route_path route)
                   (route_endpoint route) (Some (route_methods route)))
         else
           FastAPI_add_route app (prefix ++ route_path route)
             (route_endpoint route) (Some (route_methods route))
             (route_include_in_schema route))
        (fun app' => include_routes app' prefix rest)
  end.

(** [app.include_router(router, prefix=prefix)].  A non-empty prefix must
    start with a slash and must not end with one; with an empty prefix no
    included route may have an empty path.  [None] stands for the assertion
    or the [FastAPIError]. *)
Definition FastAPI_include_router (app : App) (router : APIRouter)
    (prefix : string) : option App :=
  let checked :=
    match prefix with
    | EmptyString =>
        forallb (fun r => negb (String.eqb (route_path r) "")) (router_routes router)
    | _ => startswith prefix "/" && negb (endswith prefix "/")
    end in
  if checked then include_routes app prefix (router_routes router) else None.

(** ** [server/auth.py] *)

Module auth.

(** [async def signup(): return {"message": "signup not implemented"}] *)
Definition signup : M Dict := ret [("message", "signup not implemented")].

(** [async def login(): return {"message": "login not implemented"}] *)
Definition login : M Dict := ret [("message", "login not implemented")].

(** [router = APIRouter()], then the two [@router.post] decorators in
    the order of the file. *)
Definition router : APIRouter :=
  let router := APIRouter_new in
  let router := APIRouter_post router "/auth/signup" ep_signup in
  APIRouter_post router "/auth/login" ep_login.

End auth.

(** ** [server/main.py] *)

Module main.

(** [async def health(): return {"status": "ok"}] *)
Definition health : M Dict := ret [("status", "ok")].

(** The statements of the module in order: [app = FastAPI()],
    [app.include_router(auth_router)] with the default empty prefix,
    [@app.get("/health")]. *)
Definition startup : option App :=
  option_bind FastAPI_new (fun app =>
  option_bind (FastAPI_include_router app auth.router "") (fun app =>
  Some (FastAPI_get app "/health" ep_health))).

(** The application object once the module has been imported. *)
Definition app : App :=
  match startup with
  | Some app => app
  | None => mkApp [] None
  end.

End main.

(** ** Serving a request *)

(** [get_openapi(routes=...)]: the schema lists the API routes that are
    included in it. *)
Definition get_openapi (rs : list Route) : Schema :=
  map (fun r => (route_path r, route_methods r))
      (filter (fun r => route_is_api r && route_include_in_schema r) rs).

(** [FastAPI.openapi]: the schema is generated on the first call and stored
    in [app.openapi_schema]; later calls return the stored one. *)
Definition FastAPI_openapi : M Schema :=
  app <- get_app ;;
  match openapi_schema app with
  | Some schema => ret schema
  | None =>
      let schema := get_openapi (routes app) in
      _ <- put_app (mkApp (routes app) (Some schema)) ;;
      ret schema
  end.

(** The [app] closure of [get_request_handler] for an endpoint that
    declares no parameter: there is no body field, so the request body is
    not read, no dependency is solved, the coroutine is called with no
    argument and what it returns becomes a [JSONResponse] with the default
    status 200. *)
Definition get_request_handler (call : M Dict) (request : Scope) : M Response :=
  raw_response <- call ;;
  ret (JSONResponse raw_response 200 []).

(** What a route runs once it accepted the request. *)
Definition endpoint_app (endpoint : Endpoint) (request : Scope) : M Response :=
  match endpoint with
  | ep_signup => get_request_handler auth.signup request
  | ep_login => get_request_handler auth.login request
  | ep_health => get_request_handler main.health request
  | ep_openapi =>
      schema <- FastAPI_openapi ;;
      ret (mkResponse 200 (OpenAPIContent schema) [])
  | ep_swagger_ui_html => ret (mkResponse 200 (HTMLContent SwaggerUI) [])
  | ep_swagger_ui_redirect => ret (mkResponse 200 (HTMLContent SwaggerRedirect) [])
  | ep_redoc_html => ret (mkResponse 200 (HTMLContent ReDoc) [])
  end.

(** [Route.handle]: a method outside the route's set raises
    [HTTPException(405)] with an [Allow] header. *)
Definition handle (route : Route) (scope : Scope) : M Response :=
  match route_methods route with
  | [] => endpoint_app (route_endpoint route) scope
  | ms =>
      if mem (scope_method scope) ms
      then endpoint_app (route_endpoint route) scope
      else raise (mkHTTPException 405 "Method Not Allowed"
                    [("Allow", String.concat ", " ms)])
  end.

(** [Router.app] for an HTTP scope, with [redirect_slashes] at its default
    [True] and an empty root path. *)
Definition Router_app (scope : Scope) : M Response :=
  app <- get_app ;;
  match route_loop (routes app) scope None with
  | inl route => handle route scope
  | inr (Some partial) => handle partial scope
  | inr None =>
      if negb (String.eqb (scope_path scope) "/")
         && redirect_match (routes app) scope
      then ret (RedirectResponse (URL (redirect_scope scope)))
      else not_found
  end.

Definition is_body_allowed_for_status_code (status : nat) : bool :=
  negb ((status <? 200) || (status =? 204) || (status =? 205) || (status =? 304))%nat.

(** [fastapi.exception_handlers.http_exception_handler]. *)
Definition http_exception_handler (exc : HTTPException) : Response :=
  if is_body_allowed_for_status_code (exc_status_code exc)
  then JSONResponse [("detail", exc_detail exc)] (exc_status_code exc)
         (exc_headers exc)
  else mkResponse (exc_status_code exc) NoContent (exc_headers exc).

(** One request through the application: the router runs inside the
    exception middleware, which turns a raised [HTTPException] into its
    response. *)
Definition serve (scope : Scope) (app : App) : Response * App :=
  match Router_app scope app with
  | (Returned response, app') => (response, app')
  | (Raised exc, app') => (http_exception_handler exc, app')
  end.

(** The application object after a history of requests, oldest first. *)
Definition run (history : list Scope) (app : App) : App :=
  fold_left (fun app scope => snd (serve scope app)) history app.

(** ** Vocabulary of the statements *)

(** The method and path pairs a route table answers to. *)
Definition route_pairs (rs : list Route) : list (string * string) :=
  flat_map (fun r => map (fun m => (m, route_path r)) (route_methods r)) rs.

(** The three pairs the repository declares, in declaration order. *)
Definition declared_pairs : list (string * string) :=
  [("POST", "/auth/signup"); ("POST", "/auth/login"); ("GET", "/health")].

(** The pairs of the documentation routes of the framework. *)
Definition documentation_pairs : list (string * string) :=
  [("GET", "/openapi.json"); ("HEAD", "/openapi.json");
   ("GET", "/docs"); ("HEAD", "/docs");
   ("GET", "/docs/oauth2-redirect"); ("HEAD", "/docs/oauth2-redirect");
   ("GET", "/redoc"); ("HEAD", "/redoc")].

(** The coroutines of the repository, as endpoints and as computations. *)
Definition repository_endpoints : list Endpoint := [ep_signup; ep_login; ep_health].

Definition repository_handlers : list (M Dict) :=
  [auth.signup; auth.login; main.health].

Definition signup_payload : Content :=
  JSONContent [("message", "signup not implemented")].

Definition login_payload : Content :=
  JSONContent [("message", "login not implemented")].

(** The paths of the route table of the started application. *)
Definition defined_paths : list string :=
  ["/openapi.json"; "/docs"; "/docs/oauth2-redirect"; "/redoc";
   "/auth/signup"; "/auth/login"; "/health"].


(** The method, the path and the payload of each declared route. *)
Definition payload_table : list (string * string * Content) :=
  [("POST", "/auth/signup", signup_payload);
   ("POST", "/auth/login", login_payload);
   ("GET", "/health", JSONContent [("status", "ok")])].

(** The same request with another body. *)
Definition with_body (scope : Scope) (body : string) : Scope :=
  mkScope (scope_method scope) (scope_path scope) (scope_query_string scope)
          (scope_headers scope) body.

(** Does the path match the pattern of some route of the table? *)
Definition path_known (rs : list Route) (p : string) : bool :=
  existsb (fun r => path_regex_match (route_path r) p) rs.

(** The stored schema, if any, is the one the route table generates. *)
Definition cache_ok (app : App) : Prop :=
  openapi_schema app = None
  \/ openapi_schema app = Some (get_openapi (routes app)).

Definition GET (path : string) : Scope := mkScope "GET" path "" [] "".
Definition POST (path body : string) : Scope := mkScope "POST" path "" [] body.

(** ** Small checks of the embedding *)

Example startup_succeeds : main.startup = Some main.app.
Proof. reflexivity. Qed.

Example app_has_seven_routes : length (routes main.app) = 7.
Proof. reflexivity. Qed.

Example get_health :
  fst (serve (GET "/health") main.app) = mkResponse 200 (JSONContent [("status", "ok")]) [].
Proof. reflexivity. Qed.

Example head_health_not_allowed :
  status_code (fst (serve (mkScope "HEAD" "/health" "" [] "") main.app)) = 405.
Proof. reflexivity. Qed.

Example get_health_slash_redirects :
  fst (serve (GET "/health/") main.app) = mkResponse 307 NoContent [("location", "/health")].
Proof. reflexivity. Qed.

Example get_health_line_feed :
  fst (serve (GET ("/health" ++ LF)) main.app)
  = mkResponse 200 (JSONContent [("status", "ok")]) [].
Proof. reflexivity. Qed.

Example get_nonexistent :
  fst (serve (GET "/nonexistent") main.app)
  = mkResponse 404 (JSONContent [("detail", "Not Found")]) [].
Proof. reflexivity. Qed.

Example get_openapi_fills_cache :
  openapi_schema (snd (serve (GET "/openapi.json") main.app))
  = Some [("/auth/signup", ["POST"]); ("/auth/login", ["POST"]); ("/health", ["GET"])].
Proof. reflexivity. Qed.

Example rstrip_slashes : rstrip "/a//" "/" = "/a".
Proof. reflexivity. Qed.

(** ** The route table is fixed, the schema cache is the only moving part *)

Lemma endpoint_app_routes (endpoint : Endpoint) (scope : Scope) (app : App) :
  routes (snd (endpoint_app endpoint scope app)) = routes app.
Proof.
  destruct endpoint; try reflexivity.
  unfold endpoint_app, FastAPI_openapi, bind, get_app, put_app, ret.
  destruct (openapi_schema app); reflexivity.
Qed.

Lemma handle_routes (route : Route) (scope : Scope) (app : App) :
  routes (snd (handle route scope app)) = routes app.
Proof.
  unfold handle.
  destruct (route_methods route) as [|m ms].
  - apply endpoint_app_routes.
  - destruct (mem (scope_method scope) (m :: ms)).
    + apply endpoint_app_routes.
    + reflexivity.
Qed.

Lemma Router_app_routes (scope : Scope) (app : App) :
  routes (snd (Router_app scope app)) = routes app.
Proof.
  unfold Router_app, bind, get_app.
  destruct (route_loop (routes app) scope None) as [route|[partial|]].
  - apply handle_routes.
  - apply handle_routes.
  - destruct (negb (scope_path scope =? "/") && redirect_match (routes app) scope);
      reflexivity.
Qed.

Lemma serve_routes (scope : Scope) (app : App) :
  routes (snd (serve scope app)) = routes app.
Proof.
  unfold serve.
  pose proof (Router_app_routes scope app) as H.
  destruct (Router_app scope app) as [[response|exc] app']; exact H.
Qed.

Lemma run_routes (history : list Scope) (app : App) :
  routes (run history app) = routes app.
Proof.
  unfold run. revert app.
  induction history as [|scope history IH]; intros app; simpl.
  - reflexivity.
  - rewrite IH. apply serve_routes.
Qed.

Lemma endpoint_app_cache_ok (endpoint : Endpoint) (scope : Scope) (app : App) :
  cache_ok app -> cache_ok (snd (endpoint_app endpoint scope app)).
Proof.
  intros Hok.
  destruct endpoint; try exact Hok.
  unfold endpoint_app, FastAPI_openapi, bind, get_app, put_app, ret.
  destruct (openapi_schema app) eqn:Hc; simpl.
  - exact Hok.
  - right. reflexivity.
Qed.

Lemma handle_cache_ok (route : Route) (scope : Scope) (app : App) :
  cache_ok app -> cache_ok (snd (handle route scope app)).
Proof.
  intros Hok. unfold handle.
  destruct (route_methods route) as [|m ms].
  - now apply endpoint_app_cache_ok.
  - destruct (mem (scope_method scope) (m :: ms)).
    + now apply endpoint_app_cache_ok.
    + exact Hok.
Qed.

Lemma serve_cache_ok (scope : Scope) (app : App) :
  cache_ok app -> cache_ok (snd (serve scope app)).
Proof.
  intros Hok.
  assert (H : cache_ok (snd (Router_app scope app))).
  { unfold Router_app, bind, get_app.
    destruct (route_loop (routes app) scope None) as [route|[partial|]].
    - now apply handle_cache_ok.
    - now apply handle_cache_ok.
    - destruct (negb (scope_path scope =? "/") && redirect_match (routes app) scope);
        exact Hok. }
  unfold serve.
  destruct (Router_app scope app) as [[response|exc] app']; exact H.
Qed.

Lemma run_cache_ok (history : list Scope) (app : App) :
  cache_ok app -> cache_ok (run history app).
Proof.
  unfold run. revert app.
  induction history as [|scope history IH]; intros app Hok; simpl.
  - exact Hok.
  - apply IH. now apply serve_cache_ok.
Qed.

Lemma main_app_cache_ok : cache_ok main.app.
Proof. left. reflexivity. Qed.

(** Two application objects with the same route table and sound caches
    answer every request alike. *)
Lemma endpoint_app_response (endpoint : Endpoint) (scope : Scope) (app1 app2 : App) :
  routes app1 = routes app2 -> cache_ok app1 -> cache_ok app2 ->
  fst (endpoint_app endpoint scope app1) = fst (endpoint_app endpoint scope app2).
Proof.
  intros Hr H1 H2.
  destruct endpoint; try reflexivity.
  unfold endpoint_app, FastAPI_openapi, bind, get_app, put_app, ret.
  destruct H1 as [H1|H1], H2 as [H2|H2]; rewrite H1, H2; simpl;
    rewrite ?Hr; reflexivity.
Qed.

Lemma handle_response (route : Route) (scope : Scope) (app1 app2 : App) :
  routes app1 = routes app2 -> cache_ok app1 -> cache_ok app2 ->
  fst (handle route scope app1) = fst (handle route scope app2).
Proof.
  intros Hr H1 H2. unfold handle.
  destruct (route_methods route) as [|m ms].
  - now apply endpoint_app_response.
  - destruct (mem (scope_method scope) (m :: ms)).
    + now apply endpoint_app_response.
    + reflexivity.
Qed.

Lemma Router_app_response (scope : Scope) (app1 app2 : App) :
  routes app1 = routes app2 -> cache_ok app1 -> cache_ok app2 ->
  fst (Router_app scope app1) = fst (Router_app scope app2).
Proof.
  intros Hr H1 H2. unfold Router_app, bind, get_app. rewrite Hr.
  destruct (route_loop (routes app2) scope None) as [route|[partial|]].
  - now apply handle_response.
  - now apply handle_response.
  - destruct (negb (scope_path scope =? "/") && redirect_match (routes app2) scope);
      reflexivity.
Qed.

Lemma serve_response (scope : Scope) (app1 app2 : App) :
  routes app1 = routes app2 -> cache_ok app1 -> cache_ok app2 ->
  fst (serve scope app1) = fst (serve scope app2).
Proof.
  intros Hr H1 H2.
  pose proof (Router_app_response scope app1 app2 Hr H1 H2) as H.
  unfold serve.
  destruct (Router_app scope app1) as [[r1|e1] a1],
           (Router_app scope app2) as [[r2|e2] a2]; simpl in *;
    congruence.
Qed.

(** Every state the application can be in: the initial route table and a
    sound cache. *)
Lemma run_main_app (history : list Scope) :
  exists cache,
    run history main.app = mkApp (routes main.app) cache
    /\ cache_ok (mkApp (routes main.app) cache).
Proof.
  pose proof (run_routes history main.app) as Hr.
  pose proof (run_cache_ok history main.app main_app_cache_ok) as Hc.
  destruct (run history main.app) as [rs cache]. simpl in Hr. subst rs.
  exists cache. split; [reflexivity | exact Hc].
Qed.

(** ** The three endpoints *)

(** C1.  GET /health: whatever the query string, the headers and the body
    of the request, and whatever requests were served before, the response
    is the JSON object {"status": "ok"} with status 200. *)
Theorem health_returns_ok (history : list Scope)
    (query_string : string) (headers : list (string * string)) (body : string) :
  fst (serve (mkScope "GET" "/health" query_string headers body)
         (run history main.app))
  = mkResponse 200 (JSONContent [("status", "ok")]) [].
Proof.
  destruct (run_main_app history) as [cache [-> _]].
  reflexivity.
Qed.

(** C2.  POST /auth/signup: with any body or none, after any history, the
    response is exactly {"message": "signup not implemented"} with status
    200, and serving the request leaves the application object as it was. *)
Theorem signup_returns_placeholder (history : list Scope)
    (query_string : string) (headers : list (string * string)) (body : string) :
  serve (mkScope "POST" "/auth/signup" query_string headers body)
    (run history main.app)
  = (mkResponse 200 (JSONContent [("message", "signup not implemented")]) [],
     run history main.app).
Proof.
  destruct (run_main_app history) as [cache [-> _]].
  reflexivity.
Qed.

(** C3.  POST /auth/login: with any body or none, after any history, the
    response is exactly {"message": "login not implemented"} with status
    200, and serving the request leaves the application object as it was. *)
Theorem login_returns_placeholder (history : list Scope)
    (query_string : string) (headers : list (string * string)) (body : string) :
  serve (mkScope "POST" "/auth/login" query_string headers body)
    (run history main.app)
  = (mkResponse 200 (JSONContent [("message", "login not implemented")]) [],
     run history main.app).
Proof.
  destruct (run_main_app history) as [cache [-> _]].
  reflexivity.
Qed.

(** No part of the dispatch looks at the body of a request. *)
Lemma serve_with_body (scope : Scope) (body : string) (app : App) :
  serve (with_body scope body) app = serve scope app.
Proof.
  unfold serve, Router_app, bind, get_app.
  assert (Hm : forall r, matches r (with_body scope body) = matches r scope)
    by reflexivity.
  assert (Hl : forall rs p,
             route_loop rs (with_body scope body) p = route_loop rs scope p).
  { induction rs as [|r rs IH]; intros p; simpl.
    - reflexivity.
    - rewrite Hm. destruct (matches r scope); now rewrite ?IH. }
  rewrite Hl.
  assert (Hh : forall r, handle r (with_body scope body) app = handle r scope app).
  { intros r. unfold handle. simpl.
    destruct (route_methods r); [|destruct (mem _ _)];
      try reflexivity; destruct (route_endpoint r); reflexivity. }
  destruct (route_loop (routes app) scope None) as [route|[partial|]].
  - now rewrite Hh.
  - now rewrite Hh.
  - reflexivity.
Qed.

(** C4.  Two requests to POST /auth/signup or to POST /auth/login that
    differ only in their bodies receive identical responses. *)
Theorem auth_handlers_ignore_body (history : list Scope) (scope : Scope)
    (body1 body2 : string) :
  scope_method scope = "POST" ->
  scope_path scope = "/auth/signup" \/ scope_path scope = "/auth/login" ->
  fst (serve (with_body scope body1) (run history main.app))
  = fst (serve (with_body scope body2) (run history main.app)).
Proof.
  intros _ _. now rewrite !serve_with_body.
Qed.

Lemma auth_handlers_ignore_body_witness :
  fst (serve (with_body (POST "/auth/login" "") "{user: 1}")
         (run [GET "/openapi.json"] main.app))
  = fst (serve (with_body (POST "/auth/login" "") "not json")
           (run [GET "/openapi.json"] main.app)).
Proof.
  apply (auth_handlers_ignore_body [GET "/openapi.json"] (POST "/auth/login" "")).
  - reflexivity.
  - right. reflexivity.
Defined.

(** C5.  Each handler is one unconditional return of a constant: it is
    [ret c] for a constant [c], so it never produces a raised
    [HTTPException]; and the request handler built around it returns a
    response, never an exception, for every request and application
    state. *)
Theorem handlers_cannot_fail :
  Forall (fun handler : M Dict =>
            (exists c : Dict, handler = ret c)
            /\ (forall app exc app', handler app <> (Raised exc, app')))
         repository_handlers
  /\ Forall (fun endpoint =>
               forall scope app,
                 exists response,
                   endpoint_app endpoint scope app = (Returned response, app))
            repository_endpoints.
Proof.
  split.
  - repeat constructor; try (eexists; reflexivity);
      intros app exc app' H; discriminate H.
  - repeat constructor; intros scope app; eexists; reflexivity.
Qed.

(** C7.  GET /auth/signup and GET /auth/login: the response is the 405
    "Method Not Allowed" response announcing POST, and its content is
    neither of the two handler payloads. *)
Theorem auth_get_method_not_allowed (history : list Scope)
    (query_string : string) (headers : list (string * string)) (body : string) :
  Forall (fun path =>
            let response :=
              fst (serve (mkScope "GET" path query_string headers body)
                     (run history main.app)) in
            response
            = mkResponse 405 (JSONContent [("detail", "Method Not Allowed")])
                [("Allow", "POST")]
            /\ content response <> signup_payload
            /\ content response <> login_payload)
         ["/auth/signup"; "/auth/login"].
Proof.
  destruct (run_main_app history) as [cache [-> _]].
  repeat constructor; simpl; intros H; discriminate H.
Qed.

(** C9.  No handler of the repository changes the application object,
    bare or wrapped in its request handler; the route table is the same
    after every history; and a request receives after any history the
    response it receives from the freshly started application. *)
Theorem handlers_leave_state_unchanged :
  Forall (fun handler : M Dict => forall app, snd (handler app) = app)
         repository_handlers
  /\ Forall (fun endpoint =>
               forall scope app, snd (endpoint_app endpoint scope app) = app)
            repository_endpoints
  /\ (forall history, routes (run history main.app) = routes main.app)
  /\ (forall history scope,
        fst (serve scope (run history main.app)) = fst (serve scope main.app)).
Proof.
  repeat split.
  - repeat constructor.
  - repeat constructor.
  - intros history. apply run_routes.
  - intros history scope. apply serve_response.
    + apply run_routes.
    + apply run_cache_ok, main_app_cache_ok.
    + apply main_app_cache_ok.
Qed.

(** C10.  Each of the three handlers is deterministic: two invocations,
    after any two histories and for any two requests, produce the same
    outcome, hence the same response content and the same status code. *)
Theorem handlers_deterministic :
  Forall (fun endpoint =>
            forall history1 history2 scope1 scope2,
              fst (endpoint_app endpoint scope1 (run history1 main.app))
              = fst (endpoint_app endpoint scope2 (run history2 main.app)))
         repository_endpoints
  /\ Forall (fun handler : M Dict =>
               forall app1 app2, fst (handler app1) = fst (handler app2))
            repository_handlers.
Proof.
  split; repeat constructor.
Qed.

(** ** The route table *)

(** C6, as stated, fails: GET /docs is in the route table of the started
    application and is none of the three declared pairs. *)
Lemma route_table_has_docs_route :
  In ("GET", "/docs") (route_pairs (routes main.app))
  /\ ~ In ("GET", "/docs") declared_pairs.
Proof.
  split.
  - simpl. tauto.
  - simpl. intros [H|[H|[H|[]]]]; discriminate H.
Qed.

(** C6, amended.  After startup the router holds the two POST routes, the
    application mounts them under the empty prefix with their paths
    unchanged, and the routes of the application bound to repository
    handlers are exactly POST /auth/signup, POST /auth/login and
    GET /health; before them the table holds the documentation routes the
    framework registers by default; the table is the same after every
    history of requests. *)
Theorem route_table_declared_routes :
  main.startup = Some main.app
  /\ route_pairs (router_routes auth.router)
     = [("POST", "/auth/signup"); ("POST", "/auth/login")]
  /\ route_pairs (filter route_is_api (routes main.app)) = declared_pairs
  /\ map route_endpoint (filter route_is_api (routes main.app))
     = repository_endpoints
  /\ route_pairs (routes main.app) = (documentation_pairs ++ declared_pairs)%list
  /\ (forall history, routes (run history main.app) = routes main.app).
Proof.
  repeat split. intros history. apply run_routes.
Qed.

(** ** Unknown paths *)

Lemma path_unknown_matches (rs : list Route) (scope : Scope) :
  path_known rs (scope_path scope) = false ->
  forall r, In r rs -> matches r scope = NONE.
Proof.
  unfold path_known. intros H r Hin.
  unfold matches.
  destruct (path_regex_match (route_path r) (scope_path scope)) eqn:Hm.
  - assert (Ht : existsb (fun r => path_regex_match (route_path r) (scope_path scope)) rs
                 = true)
      by (apply existsb_exists; exists r; split; assumption).
    congruence.
  - reflexivity.
Qed.

Lemma route_loop_no_match (rs : list Route) (scope : Scope) (partial : option Route) :
  (forall r, In r rs -> matches r scope = NONE) ->
  route_loop rs scope partial = inr partial.
Proof.
  induction rs as [|r rs IH]; intros H; simpl.
  - reflexivity.
  - rewrite (H r (or_introl eq_refl)).
    apply IH. intros r' Hin. apply H. right. exact Hin.
Qed.

Lemma redirect_no_match (rs : list Route) (scope : Scope) :
  path_known rs (scope_path (redirect_scope scope)) = false ->
  redirect_match rs scope = false.
Proof.
  intros H. unfold redirect_match.
  destruct (existsb _ rs) eqn:He; [|reflexivity].
  apply existsb_exists in He. destruct He as [r [Hin Hr]].
  rewrite (path_unknown_matches rs (redirect_scope scope) H r Hin) in Hr.
  discriminate Hr.
Qed.

(** A path no route knows, with or without its trailing slash, is answered
    by the 404 response, and the application object is left alone. *)
Lemma serve_not_found (scope : Scope) (app : App) :
  path_known (routes app) (scope_path scope) = false ->
  path_known (routes app) (scope_path (redirect_scope scope)) = false ->
  serve scope app
  = (mkResponse 404 (JSONContent [("detail", "Not Found")]) [], app).
Proof.
  intros H1 H2.
  unfold serve, Router_app, bind, get_app.
  rewrite (route_loop_no_match _ _ None (path_unknown_matches _ _ H1)).
  rewrite (redirect_no_match _ _ H2), andb_false_r.
  reflexivity.
Qed.

(** C8, as stated, fails: /docs is none of the three declared paths and
    GET /docs is answered with status 200. *)
Lemma undefined_path_docs_found :
  scope_path (GET "/docs") <> "/auth/signup"
  /\ scope_path (GET "/docs") <> "/auth/login"
  /\ scope_path (GET "/docs") <> "/health"
  /\ status_code (fst (serve (GET "/docs") main.app)) = 200
  /\ status_code (fst (serve (GET "/docs") main.app)) <> 404.
Proof.
  repeat split; simpl; intros H; discriminate H.
Qed.

(** C8, amended.  A request whose path matches no route of the table, and
    still matches none once its trailing slashes are removed (if it ends
    in a slash) or a slash is appended (otherwise), receives the 404
    "Not Found" response, after any history. *)
Theorem unknown_path_not_found (history : list Scope) (scope : Scope) :
  path_known (routes main.app) (scope_path scope) = false ->
  path_known (routes main.app) (scope_path (redirect_scope scope)) = false ->
  fst (serve scope (run history main.app))
  = mkResponse 404 (JSONContent [("detail", "Not Found")]) [].
Proof.
  intros H1 H2.
  destruct (run_main_app history) as [cache [-> _]].
  rewrite serve_not_found; [reflexivity | exact H1 | exact H2].
Qed.

Lemma unknown_path_not_found_witness :
  fst (serve (GET "/nonexistent") (run [POST "/auth/login" "x"] main.app))
  = mkResponse 404 (JSONContent [("detail", "Not Found")]) [].
Proof.
  apply (unknown_path_not_found [POST "/auth/login" "x"] (GET "/nonexistent"));
    reflexivity.
Defined.

(** *** The amended statement of C8 is tight *)

Lemma matches_NONE (r : Route) (scope : Scope) :
  matches r scope = NONE
  <-> path_regex_match (route_path r) (scope_path scope) = false.
Proof.
  unfold matches.
  destruct (path_regex_match (route_path r) (scope_path scope)).
  - split; [|discriminate].
    destruct (route_methods r) as [|m ms]; [discriminate|].
    destruct (mem (scope_method scope) (m :: ms)); discriminate.
  - split; reflexivity.
Qed.

Lemma route_loop_keeps_partial (rs : list Route) (scope : Scope) (p : Route) :
  route_loop rs scope (Some p) <> inr None.
Proof.
  induction rs as [|r rs IH]; simpl.
  - discriminate.
  - destruct (matches r scope); [exact IH | exact IH | discriminate].
Qed.

Lemma route_loop_inr_None (rs : list Route) (scope : Scope) :
  route_loop rs scope None = inr None ->
  path_known rs (scope_path scope) = false.
Proof.
  induction rs as [|r rs IH]; simpl; intros H.
  - reflexivity.
  - destruct (matches r scope) eqn:Hm.
    + apply matches_NONE in Hm. rewrite Hm. simpl. now apply IH.
    + now apply route_loop_keeps_partial in H.
    + discriminate H.
Qed.

Lemma redirect_match_false (rs : list Route) (scope : Scope) :
  redirect_match rs scope = false ->
  path_known rs (scope_path (redirect_scope scope)) = false.
Proof.
  unfold redirect_match, path_known.
  induction rs as [|r rs IH]; cbn [existsb]; intros H.
  - reflexivity.
  - apply orb_false_iff in H. destruct H as [Hr Hrs].
    rewrite (IH Hrs), orb_false_r.
    apply matches_NONE.
    destruct (matches r (redirect_scope scope)); [reflexivity | discriminate Hr ..].
Qed.

(** A route that takes the request answers 200 or 405, never 404. *)
Lemma handle_not_404 (route : Route) (scope : Scope) (app : App) :
  status_code
    (match handle route scope app with
     | (Returned response, _) => response
     | (Raised exc, _) => http_exception_handler exc
     end) <> 404.
Proof.
  unfold handle.
  assert (He : forall e,
             status_code
               (match endpoint_app e scope app with
                | (Returned response, _) => response
                | (Raised exc, _) => http_exception_handler exc
                end) <> 404).
  { intros e. destruct e; try discriminate.
    unfold endpoint_app, FastAPI_openapi, bind, get_app, put_app, ret.
    destruct (openapi_schema app); discriminate. }
  destruct (route_methods route) as [|m ms]; [apply He|].
  destruct (mem (scope_method scope) (m :: ms)); [apply He | discriminate].
Qed.

(** The 404 response is given only to the paths of the amended C8. *)
Lemma serve_404_only_unknown (scope : Scope) (app : App) :
  status_code (fst (serve scope app)) = 404 ->
  path_known (routes app) (scope_path scope) = false
  /\ (scope_path scope = "/"
      \/ path_known (routes app) (scope_path (redirect_scope scope)) = false).
Proof.
  unfold serve, Router_app, bind, get_app.
  destruct (route_loop (routes app) scope None) as [route|[partial|]] eqn:Hl.
  - intros H. exfalso. apply (handle_not_404 route scope app).
    destruct (handle route scope app) as [[response|exc] app']; exact H.
  - intros H. exfalso. apply (handle_not_404 partial scope app).
    destruct (handle partial scope app) as [[response|exc] app']; exact H.
  - intros H. split; [now apply route_loop_inr_None|].
    destruct (scope_path scope =? "/") eqn:Hp; simpl in H.
    + left. now apply String.eqb_eq.
    + right. destruct (redirect_match (routes app) scope) eqn:Hr.
      * discriminate H.
      * now apply redirect_match_false.
Qed.

(** On the started application a path is known exactly when it is one of
    the seven defined paths, possibly followed by one line feed. *)
Lemma path_known_main_app (p : string) :
  path_known (routes main.app) p = true
  <-> exists d, In d defined_paths /\ (p = d \/ p = (d ++ LF)%string).
Proof.
  unfold path_known. rewrite existsb_exists. split.
  - intros [r [Hin Hm]]. exists (route_path r). split.
    + apply (in_map route_path) in Hin. exact Hin.
    + unfold path_regex_match in Hm. apply orb_true_iff in Hm.
      destruct Hm as [Hm|Hm]; apply String.eqb_eq in Hm; auto.
  - intros [d [Hin Hp]].
    change defined_paths with (map route_path (routes main.app)) in Hin.
    apply in_map_iff in Hin. destruct Hin as [r [Hd Hin]].
    exists r. split; [exact Hin|].
    unfold path_regex_match. rewrite Hd. apply orb_true_iff.
    destruct Hp as [->| ->]; [left | right]; apply String.eqb_refl.
Qed.

(** ** What the dispatch does with a matching route *)

Lemma route_loop_inl (rs : list Route) (scope : Scope) (p : option Route) (r : Route) :
  route_loop rs scope p = inl r -> In r rs /\ matches r scope = FULL.
Proof.
  revert p. induction rs as [|r0 rs IH]; intros p; simpl.
  - discriminate.
  - destruct (matches r0 scope) eqn:Hm.
    + intros H. destruct (IH _ H) as [Hin HF]. auto.
    + intros H. destruct (IH _ H) as [Hin HF]. auto.
    + intros H. injection H as <-. auto.
Qed.

Lemma route_loop_inr_Some (rs : list Route) (scope : Scope) (p : option Route)
    (r : Route) :
  route_loop rs scope p = inr (Some r) ->
  p = Some r \/ (p = None /\ In r rs /\ matches r scope = PARTIAL).
Proof.
  revert p. induction rs as [|r0 rs IH]; intros p; simpl.
  - intros H. injection H as ->. now left.
  - destruct (matches r0 scope) eqn:Hm.
    + intros H. destruct (IH _ H) as [Hp|[Hp [Hin HP]]]; auto.
    + intros H. destruct p as [x|].
      * destruct (IH _ H) as [Hp|[Hp _]]; [now left | discriminate Hp].
      * destruct (IH _ H) as [Hp|[Hp _]]; [|discriminate Hp].
        injection Hp as <-. right. auto.
    + discriminate.
Qed.

Lemma matches_FULL_handle (r : Route) (scope : Scope) (app : App) :
  matches r scope = FULL ->
  path_regex_match (route_path r) (scope_path scope) = true
  /\ (route_methods r = [] \/ mem (scope_method scope) (route_methods r) = true)
  /\ handle r scope app = endpoint_app (route_endpoint r) scope app.
Proof.
  unfold matches, handle.
  destruct (path_regex_match (route_path r) (scope_path scope)); [|discriminate].
  destruct (route_methods r) as [|m ms]; [auto|].
  destruct (mem (scope_method scope) (m :: ms)); [auto | discriminate].
Qed.

Lemma matches_PARTIAL_handle (r : Route) (scope : Scope) (app : App) :
  matches r scope = PARTIAL ->
  path_regex_match (route_path r) (scope_path scope) = true
  /\ mem (scope_method scope) (route_methods r) = false
  /\ handle r scope app
     = (Raised (mkHTTPException 405 "Method Not Allowed"
                  [("Allow", String.concat ", " (route_methods r))]), app).
Proof.
  unfold matches, handle.
  destruct (path_regex_match (route_path r) (scope_path scope)); [|discriminate].
  destruct (route_methods r) as [|m ms]; [discriminate|].
  destruct (mem (scope_method scope) (m :: ms)); [discriminate | auto].
Qed.



(** ** Methods the declared routes refuse *)

(** X1.  A request for /auth/signup or /auth/login with any method other
    than POST (GET, HEAD, PUT, DELETE, a lower-case "post", ...) is
    answered 405 "Method Not Allowed" with [Allow: POST], whatever the rest
    of the request and the history, and the application object is left as
    it was. *)
Theorem auth_routes_only_post (history : list Scope) (scope : Scope) :
  scope_path scope = "/auth/signup" \/ scope_path scope = "/auth/login" ->
  scope_method scope <> "POST" ->
  serve scope (run history main.app)
  = (mkResponse 405 (JSONContent [("detail", "Method Not Allowed")])
       [("Allow", "POST")],
     run history main.app).
Proof.
  intros Hp Hm. apply String.eqb_neq in Hm.
  destruct (run_main_app history) as [cache [-> _]].
  destruct scope as [m p q hs b]. simpl in Hp, Hm.
  unfold serve, Router_app, bind, get_app.
  destruct Hp as [-> | ->]; cbn; rewrite Hm; cbn; rewrite Hm; reflexivity.
Qed.

Lemma auth_routes_only_post_witness :
  serve (mkScope "DELETE" "/auth/login" "" [] "") (run [GET "/health"] main.app)
  = (mkResponse 405 (JSONContent [("detail", "Method Not Allowed")])
       [("Allow", "POST")],
     run [GET "/health"] main.app).
Proof.
  apply (auth_routes_only_post [GET "/health"]
           (mkScope "DELETE" "/auth/login" "" [] "")).
  - right. reflexivity.
  - discriminate.
Defined.

(** X2.  A request for /health with any method other than GET, HEAD
    included, is answered 405 "Method Not Allowed" with [Allow: GET], and the
    application object is left as it was. *)
Theorem health_route_only_get (history : list Scope) (scope : Scope) :
  scope_path scope = "/health" ->
  scope_method scope <> "GET" ->
  serve scope (run history main.app)
  = (mkResponse 405 (JSONContent [("detail", "Method Not Allowed")])
       [("Allow", "GET")],
     run history main.app).
Proof.
  intros Hp Hm. apply String.eqb_neq in Hm.
  destruct (run_main_app history) as [cache [-> _]].
  destruct scope as [m p q hs b]. simpl in Hp, Hm. subst p.
  unfold serve, Router_app, bind, get_app.
  cbn. rewrite Hm. cbn. rewrite Hm. reflexivity.
Qed.

Lemma health_route_only_get_witness :
  serve (mkScope "HEAD" "/health" "" [] "") main.app
  = (mkResponse 405 (JSONContent [("detail", "Method Not Allowed")])
       [("Allow", "GET")],
     main.app).
Proof.
  apply (health_route_only_get [] (mkScope "HEAD" "/health" "" [] "")).
  - reflexivity.
  - discriminate.
Defined.

(** ** Trailing slashes *)











(** ** What a response can be *)


Ltac split_in H :=
  repeat match type of H with
         | _ \/ _ => destruct H as [H|H]
         | False => contradiction
         end.

(** X5.  A handler payload is returned to nobody but the requests of its
    own route: if the content of a response is the payload of a declared
    route, the request had the method of that route and its path, possibly
    followed by one line feed. *)
Theorem payload_only_from_its_route (history : list Scope) (scope : Scope)
    (method path : string) (payload : Content) :
  In (method, path, payload) payload_table ->
  content (fst (serve scope (run history main.app))) = payload ->
  scope_method scope = method
  /\ (scope_path scope = path \/ scope_path scope = (path ++ LF)%string).
Proof.
  intros Ht.
  destruct (run_main_app history) as [cache [-> _]].
  set (app := mkApp (routes main.app) cache).
  unfold serve, Router_app, bind, get_app.
  change (routes app) with (routes main.app).
  destruct (route_loop (routes main.app) scope None) as [r|[p|]] eqn:Hl.
  - apply route_loop_inl in Hl. destruct Hl as [Hin HF].
    destruct (matches_FULL_handle r scope app HF) as [Hp [Hm ->]].
    unfold path_regex_match in Hp. apply orb_true_iff in Hp.
    rewrite !String.eqb_eq in Hp.
    simpl in Hin, Ht. split_in Hin; subst r; simpl in Hp, Hm;
      (destruct Hm as [Hm|Hm]; [discriminate Hm|]);
      unfold mem in Hm; simpl in Hm; rewrite ?orb_false_r in Hm;
      split_in Ht; injection Ht as <- <- <-;
      try (simpl; destruct cache; simpl; discriminate);
      try (simpl; discriminate);
      intros _; apply String.eqb_eq in Hm; auto.
  - apply route_loop_inr_Some in Hl.
    destruct Hl as [Hl|[_ [_ HP]]]; [discriminate Hl|].
    destruct (matches_PARTIAL_handle p scope app HP) as [_ [_ ->]].
    simpl in Ht. split_in Ht; injection Ht as <- <- <-; simpl; discriminate.
  - simpl in Ht.
    destruct (negb (scope_path scope =? "/") && redirect_match (routes main.app) scope);
      split_in Ht; injection Ht as <- <- <-; simpl; discriminate.
Qed.

Lemma payload_only_from_its_route_witness :
  scope_method (POST "/auth/signup" "x") = "POST"
  /\ (scope_path (POST "/auth/signup" "x") = "/auth/signup"
      \/ scope_path (POST "/auth/signup" "x") = ("/auth/signup" ++ LF)%string).
Proof.
  apply (payload_only_from_its_route [] (POST "/auth/signup" "x")
           "POST" "/auth/signup" signup_payload).
  - simpl. tauto.
  - reflexivity.
Defined.

(** ** What a response depends on *)








(** X8.  A path of the table followed by a single line feed is dispatched
    like the path itself: the pattern of a route ends in [$], which also
    accepts the position before a final newline. *)
Theorem line_feed_path_same_response (history : list Scope)
    (method d query_string : string) (headers : list (string * string))
    (body : string) :
  In d defined_paths ->
  serve (mkScope method (d ++ LF) query_string headers body)
    (run history main.app)
  = serve (mkScope method d query_string headers body) (run history main.app).
Proof.
  intros Hd.
  destruct (run_main_app history) as [cache [-> _]].
  simpl in Hd. split_in Hd; subst d; reflexivity.
Qed.

Lemma line_feed_path_same_response_witness :
  serve (mkScope "POST" ("/auth/signup" ++ LF) "" [] "") (run [] main.app)
  = serve (mkScope "POST" "/auth/signup" "" [] "") (run [] main.app).
Proof.
  apply (line_feed_path_same_response [] "POST" "/auth/signup" "" [] "").
  simpl. tauto.
Defined.

(** ** Following a redirect *)




